(** * ClaytipDatabaseInitFn: the stack-creation lambda that initialises the database

    Shallow embedding of [integration/aws/lambda_function.py] and the
    properties of its lifecycle handlers.

    The handlers are straight-line Python: every statement is a call into
    the process environment, the logger, the file system or the psycopg2
    driver, and any of these calls may raise.  A handler is therefore
    embedded as a program over a signature of such calls ([Eff.prog]); the
    program is run against an interpretation of the calls ([Eff.run]),
    which threads the state of the outside world, records every call with
    its outcome, and stops at the first exception that nothing catches.

    [World] gives the interpretation used for the claims that speak about
    the database server: a process environment, a working directory, a
    PostgreSQL instance whose SQL semantics is kept abstract
    ([Postgres]), and the driver's table of connections and cursors. *)

From Stdlib Require Import ZArith List Ascii String.
From stdpp Require Import base option list strings gmap.

Set Default Proof Using "Type".
Local Open Scope string_scope.
Local Open Scope list_scope.

(* ------------------------------------------------------------------ *)
(** ** Python values and exceptions *)

Module Py.

(** The exceptions the calls of the handler can raise. *)
Inductive exn : Type :=
| OperationalError (msg : string)      (* psycopg2: connection refused, bad login, unknown database *)
| DuplicateDatabase (msg : string)     (* psycopg2.errors, SQLSTATE 42P04 *)
| ActiveSqlTransaction (msg : string)  (* psycopg2.errors, SQLSTATE 25001 *)
| ProgrammingError (msg : string)      (* psycopg2: the server rejected the statement *)
| InterfaceError (msg : string)        (* psycopg2: use of a closed connection or cursor *)
| FileNotFoundError (msg : string)
| ValueError (msg : string)
| OtherError (msg : string).

(** Outcome of a Python call: a value, or a raised exception. *)
Inductive result (A : Type) : Type :=
| Ok (a : A)
| Raise (e : exn).
Arguments Ok {A} a.
Arguments Raise {A} e.

(** Event and context payloads handed to the lifecycle callbacks. *)
#[local] Unset Elimination Schemes.
Inductive pyval : Type :=
| PyNone
| PyBool (b : bool)
| PyInt (z : Z)
| PyStr (s : string)
| PyList (items : list pyval)
| PyDict (items : list (string * pyval)).
#[local] Set Elimination Schemes.

(** [str(x)] for a value of type [Optional[str]], as an f-string
    placeholder [{x}] renders it. *)
Definition fstr (x : option string) : string :=
  match x with
  | Some s => s
  | None => "None"
  end.

(** [fmt % args] restricted to the [%s] conversion; surplus
    placeholders are left as they are. *)
Fixpoint percent_format (fmt : string) (args : list string) : string :=
  match fmt with
  | EmptyString => EmptyString
  | String c rest =>
      match rest with
      | String d rest' =>
          if (Ascii.eqb c "%" && Ascii.eqb d "s")%bool then
            match args with
            | a :: args' => a +:+ percent_format rest' args'
            | [] => String c (percent_format rest args)
            end
          else String c (percent_format rest args)
      | EmptyString => String c EmptyString
      end
  end.

(** [LogRecord.getMessage]: the message is formatted only when
    arguments were passed. *)
Definition getMessage (msg : string) (args : list string) : string :=
  match args with
  | [] => msg
  | _ => percent_format msg args
  end.

End Py.
Export Py.

(* ------------------------------------------------------------------ *)
(** ** Calls, programs and their runs *)

Module Eff.

(** Handles returned by the driver and by [open]. *)
Definition connection := nat.
Definition cursor := nat.
Definition file := nat.

(** The calls the module makes into its surroundings, indexed by the
    type of the value a call returns. *)
Inductive call : Type -> Type :=
| LogInfo (msg : string) (args : list string) : call unit
| Getenv (key : string) : call (option string)
| Connect (user password host port database : option string) : call connection
| SetIsolationLevel (conn : connection) (level : Z) : call unit
| ConnCursor (conn : connection) : call cursor
| Execute (cur : cursor) (query : string) : call unit
| CursorClose (cur : cursor) : call unit
| ConnClose (conn : connection) : call unit
| Open (path mode : string) : call file
| Read (f : file) : call string.

(** Statement sequences.  [TryExcept] and [TryFinally] are Python's two
    ways of intercepting an exception. *)
Inductive prog : Type -> Type :=
| Ret {A} (a : A) : prog A
| Call {X} (c : call X) : prog X
| Bind {A B} (p : prog A) (k : A -> prog B) : prog B
| TryExcept {A} (body : prog A) (handler : exn -> prog A) : prog A
| TryFinally {A} (body : prog A) (cleanup : prog unit) : prog A.

(** One entry of a run: the call made and how it came back. *)
Inductive entry : Type :=
| Ev {X} (c : call X) (r : result X).

Section Run.
Context {W : Type}.
(** How the surroundings answer a call in a given state. *)
Variable answer : forall X, call X -> W -> result X * W.

Fixpoint run {A} (p : prog A) (w : W) : list entry * result A * W :=
  match p in prog T return list entry * result T * W with
  | Ret a => ([], Ok a, w)
  | Call c =>
      let '(r, w') := answer _ c w in ([Ev c r], r, w')
  | Bind p k =>
      match run p w with
      | (tr, Ok a, w') =>
          let '(tr', r, w'') := run (k a) w' in (tr ++ tr', r, w'')
      | (tr, Raise e, w') => (tr, Raise e, w')
      end
  | TryExcept body handler =>
      match run body w with
      | (tr, Ok a, w') => (tr, Ok a, w')
      | (tr, Raise e, w') =>
          let '(tr', r, w'') := run (handler e) w' in (tr ++ tr', r, w'')
      end
  | TryFinally body cleanup =>
      match run body w with
      | (tr, r, w') =>
          match run cleanup w' with
          | (tr', Ok _, w'') => (tr ++ tr', r, w'')
          | (tr', Raise e, w'') => (tr ++ tr', Raise e, w'')
          end
      end
  end.
End Run.

Definition trace {A W} (x : list entry * result A * W) : list entry := x.1.1.
Definition outcome {A W} (x : list entry * result A * W) : result A := x.1.2.
Definition final {A W} (x : list entry * result A * W) : W := x.2.

(** [r] names the run [x]. *)
Definition is_run {T : Type} (r x : T) : Prop := r = x.

(** A run that starts with entry [ev] and goes on as [x]. *)
Definition prepend {A W} (ev : entry) (x : list entry * result A * W)
  : list entry * result A * W :=
  (ev :: trace x, outcome x, final x).

(** Programs in which nothing intercepts an exception. *)
Inductive straight : forall {A}, prog A -> Prop :=
| straight_ret {A} (a : A) : straight (Ret a)
| straight_call {X} (c : call X) : straight (Call c)
| straight_bind {A B} (p : prog A) (k : A -> prog B) :
    straight p -> (forall a, straight (k a)) -> straight (Bind p k).

(** *** Reading a trace *)

(** The exception an entry ended with, if any. *)
Definition ev_raised (e : entry) : option exn :=
  match e with
  | Ev _ (Raise x) => Some x
  | Ev _ (Ok _) => None
  end.

(** The statement of an [execute] entry, with the cursor it ran on. *)
Definition ev_execute (e : entry) : option (cursor * string) :=
  match e with
  | Ev c _ =>
      match c with
      | Execute cur q => Some (cur, q)
      | _ => None
      end
  end.

(** The connection a successful [connect] entry returned. *)
Definition ev_connected (e : entry) : option connection :=
  match e with
  | Ev c r =>
      match c in call T return result T -> option connection with
      | Connect _ _ _ _ _ => fun r => match r with Ok h => Some h | Raise _ => None end
      | _ => fun _ => None
      end r
  end.

(** The connection a [close] entry was addressed to. *)
Definition ev_conn_close (e : entry) : option connection :=
  match e with
  | Ev c _ =>
      match c with
      | ConnClose h => Some h
      | _ => None
      end
  end.

(** The line an entry wrote to the log. *)
Definition ev_logged (e : entry) : option string :=
  match e with
  | Ev c _ =>
      match c with
      | LogInfo msg args => Some (getMessage msg args)
      | _ => None
      end
  end.

(** Entries that touch a file: [open] and [read]. *)
Definition ev_file (e : entry) : bool :=
  match e with
  | Ev c _ =>
      match c with
      | Open _ _ | Read _ => true
      | _ => false
      end
  end.

(** The text a successful [read] entry returned. *)
Definition ev_read (e : entry) : option string :=
  match e with
  | Ev c r =>
      match c in call T return result T -> option string with
      | Read _ => fun r => match r with Ok text => Some text | Raise _ => None end
      | _ => fun _ => None
      end r
  end.

(** The connection and the cursor of a successful [cursor] entry. *)
Definition ev_cursor (e : entry) : option (connection * cursor) :=
  match e with
  | Ev c r =>
      match c in call T return result T -> option (connection * cursor) with
      | ConnCursor h => fun r => match r with Ok cur => Some (h, cur) | Raise _ => None end
      | _ => fun _ => None
      end r
  end.

(** Did an [open] or a [read] raise? *)
Definition file_fault (tr : list entry) : bool :=
  existsb (fun e => ev_file e && match ev_raised e with Some _ => true | None => false end) tr.

(** The entries that come before the first [execute]. *)
Fixpoint until_execute (tr : list entry) : list entry :=
  match tr with
  | [] => []
  | e :: tr' =>
      match ev_execute e with
      | Some _ => []
      | None => e :: until_execute tr'
      end
  end.

(** Was [close] called on connection [h]? *)
Definition closed_by (tr : list entry) (h : connection) : bool :=
  existsb (Nat.eqb h) (omap ev_conn_close tr).

(** What the database server gets to see of a run: connections being
    opened, configured and closed, and statements being sent. *)
Inductive db_effect : Type :=
| DbConnect (user password host port database : option string) (r : result connection)
| DbAutocommit (conn : connection) (level : Z)
| DbExecute (cur : cursor) (query : string) (r : result unit)
| DbClose (conn : connection).

Definition ev_db (e : entry) : option db_effect :=
  match e with
  | Ev c r =>
      match c in call T return result T -> option db_effect with
      | Connect u p h pt d => fun r => Some (DbConnect u p h pt d r)
      | SetIsolationLevel h l => fun _ => Some (DbAutocommit h l)
      | Execute cur q => fun r => Some (DbExecute cur q r)
      | ConnClose h => fun _ => Some (DbClose h)
      | _ => fun _ => None
      end r
  end.

Definition executed (tr : list entry) : list (cursor * string) := omap ev_execute tr.
Definition log_lines (tr : list entry) : list string := omap ev_logged tr.
Definition db_effects (tr : list entry) : list db_effect := omap ev_db tr.

Declare Scope prog_scope.
Delimit Scope prog_scope with prog.
Notation "x <- p ;; q" := (Bind p (fun x => q))
  (at level 20, p at level 99, q at level 200, only parsing) : prog_scope.
Notation "p ;; q" := (Bind p (fun _ => q))
  (at level 100, q at level 200, only parsing, right associativity) : prog_scope.

End Eff.
Export Eff.

(* ------------------------------------------------------------------ *)
(** ** lambda_function.py

    The module registers its callbacks with a crhelper [CfnResource]; its
    entry point [handler] logs one line and hands the event to that
    adapter, which is not part of the module and calls back the function
    registered for the phase of the event. *)

Module Lambda.
Local Open Scope prog_scope.

(** [psycopg2.extensions.ISOLATION_LEVEL_AUTOCOMMIT] *)
Definition ISOLATION_LEVEL_AUTOCOMMIT : Z := 0.

(** A lifecycle callback: [(event, context)] to a statement sequence. *)
Definition callback : Type := pyval -> pyval -> prog unit.

(** The callbacks a [CfnResource] holds; its decorators store the
    function and hand it back unchanged. *)
Record CfnResource : Type := MkCfnResource {
  _create_func : option callback;
  _update_func : option callback;
  _delete_func : option callback
}.

Definition CfnResource_init : CfnResource :=
  {| _create_func := None; _update_func := None; _delete_func := None |}.

Definition decorate_create (f : callback) (r : CfnResource) : callback * CfnResource :=
  (f, {| _create_func := Some f; _update_func := _update_func r; _delete_func := _delete_func r |}).
Definition decorate_update (f : callback) (r : CfnResource) : callback * CfnResource :=
  (f, {| _create_func := _create_func r; _update_func := Some f; _delete_func := _delete_func r |}).
Definition decorate_delete (f : callback) (r : CfnResource) : callback * CfnResource :=
  (f, {| _create_func := _create_func r; _update_func := _update_func r; _delete_func := Some f |}).

(** [def create(event, context)] *)
Definition create (event context : pyval) : prog unit :=
  Call (LogInfo "Connecting to db..." []) ;;
  user <- Call (Getenv "CLAY_DATABASE_USER") ;;
  password <- Call (Getenv "CLAY_DATABASE_PASSWORD") ;;
  host <- Call (Getenv "CLAY_DATABASE_HOST") ;;
  port <- Call (Getenv "CLAY_DATABASE_HOST_PORT") ;;
  dbname <- Call (Getenv "CLAY_DATABASE_NAME") ;;
  Call (LogInfo ("user=" +:+ fstr user +:+ ", host=" +:+ fstr host +:+
                 ", port=" +:+ fstr port +:+ ", dbname=" +:+ fstr dbname) []) ;;
  conn <- Call (Connect user password host port (Some "postgres")) ;;
  Call (SetIsolationLevel conn ISOLATION_LEVEL_AUTOCOMMIT) ;;
  Call (LogInfo "Connected to PostgreSQL instance." []) ;;
  Call (LogInfo "Reading initialization SQL..." []) ;;
  sql_file <- Call (Open "index.sql" "r") ;;
  sql <- Call (Read sql_file) ;;
  Call (LogInfo "SQL: %s" [sql]) ;;
  cur <- Call (ConnCursor conn) ;;
  Call (LogInfo ("Creating database " +:+ fstr dbname +:+ "...") []) ;;
  Call (Execute cur ("CREATE DATABASE " +:+ fstr dbname +:+ ";")) ;;
  Call (CursorClose cur) ;;
  Call (ConnClose conn) ;;
  Call (LogInfo ("Reconnecting using " +:+ fstr dbname +:+ "...") []) ;;
  conn2 <- Call (Connect user password host port dbname) ;;
  Call (SetIsolationLevel conn2 ISOLATION_LEVEL_AUTOCOMMIT) ;;
  Call (LogInfo "Executing initialization script..." []) ;;
  cur2 <- Call (ConnCursor conn2) ;;
  Call (Execute cur2 sql) ;;
  Call (CursorClose cur2) ;;
  Call (ConnClose conn2) ;;
  Call (LogInfo "Done." []).

(** [def no_op(_, __): pass] *)
Definition no_op (_ __ : pyval) : prog unit := Ret tt.

(** The module body: [helper = CfnResource(ssl_verify=None)] followed by
    the decorated definitions, decorators applied innermost first. *)
Definition helper : CfnResource :=
  let h := CfnResource_init in
  let '(create, h) := decorate_create create h in
  let '(no_op, h) := decorate_delete no_op h in
  let '(no_op, h) := decorate_update no_op h in
  h.

(** The lifecycle phases of a stack event. *)
Inductive phase : Type := OnCreate | OnUpdate | OnDelete.

(** The callback the module has registered for a phase. *)
Definition registered (h : CfnResource) (ph : phase) : option callback :=
  match ph with
  | OnCreate => _create_func h
  | OnUpdate => _update_func h
  | OnDelete => _delete_func h
  end.

(** The lines [create] would log in a run that reaches its end, as a
    function of the four settings it prints and of the script text. *)
Definition create_log (user host port dbname : option string) (sql : string) : list string :=
  [ "Connecting to db...";
    "user=" +:+ fstr user +:+ ", host=" +:+ fstr host +:+
    ", port=" +:+ fstr port +:+ ", dbname=" +:+ fstr dbname;
    "Connected to PostgreSQL instance.";
    "Reading initialization SQL...";
    "SQL: " +:+ sql;
    "Creating database " +:+ fstr dbname +:+ "...";
    "Reconnecting using " +:+ fstr dbname +:+ "...";
    "Executing initialization script...";
    "Done." ].

(** The first eight entries of a run of [create] in which the
    environment is [env] and [connect] comes back as [res]. *)
Definition create_opening (env : gmap string string) (res : result connection) : list entry :=
  let user := env !! "CLAY_DATABASE_USER" in
  let password := env !! "CLAY_DATABASE_PASSWORD" in
  let host := env !! "CLAY_DATABASE_HOST" in
  let port := env !! "CLAY_DATABASE_HOST_PORT" in
  let dbname := env !! "CLAY_DATABASE_NAME" in
  [ Ev (LogInfo "Connecting to db..." []) (Ok tt);
    Ev (Getenv "CLAY_DATABASE_USER") (Ok user);
    Ev (Getenv "CLAY_DATABASE_PASSWORD") (Ok password);
    Ev (Getenv "CLAY_DATABASE_HOST") (Ok host);
    Ev (Getenv "CLAY_DATABASE_HOST_PORT") (Ok port);
    Ev (Getenv "CLAY_DATABASE_NAME") (Ok dbname);
    Ev (LogInfo ("user=" +:+ fstr user +:+ ", host=" +:+ fstr host +:+
                 ", port=" +:+ fstr port +:+ ", dbname=" +:+ fstr dbname) []) (Ok tt);
    Ev (Connect user password host port (Some "postgres")) res ].

End Lambda.
Export Lambda.

(* ------------------------------------------------------------------ *)
(** ** The surroundings of the handler *)

Module Pg.

(** What the PostgreSQL instance makes of a login and of SQL text.  It is
    a parameter of the development: the handler only ships strings. *)
Class Postgres : Type := MkPostgres {
  (** contents of one database *)
  Db : Type;
  (** contents of a database right after CREATE DATABASE *)
  template : Db;
  (** does the instance let [user]/[password] in at [host]:[port]? *)
  accepts : option string -> option string -> option string -> option string -> bool;
  (** [Some n] when the instance reads the text as the creation of
      database [n] *)
  reads_create : string -> option string;
  (** any other text, run inside one database: the contents it leaves
      behind, and the error it ends with, if any *)
  run_batch : string -> Db -> Db * option exn
}.

Section World.
Context `{Postgres}.

(** A psycopg2 connection object. *)
Record conn_state : Type := MkConn {
  c_database : string;
  c_autocommit : bool;
  c_open : bool;
  (** uncommitted contents of a connection that is not autocommit *)
  c_pending : option Db
}.

(** A psycopg2 cursor object. *)
Record cursor_state : Type := MkCursor {
  cur_conn : connection;
  cur_open : bool
}.

Record World : Type := MkWorld {
  (** [os.environ] *)
  environ : gmap string string;
  (** text files of the working directory *)
  files : gmap string string;
  (** the databases of the instance *)
  databases : gmap string Db;
  (** connection and cursor objects; a handle is an index *)
  conns : list conn_state;
  cursors : list cursor_state;
  (** file objects: what is left to read *)
  fds : list string;
  (** lines emitted by the root logger *)
  logged : list string
}.

Definition with_environ (e : gmap string string) (w : World) : World :=
  MkWorld e (files w) (databases w) (conns w) (cursors w) (fds w) (logged w).
Definition with_databases (d : gmap string Db) (w : World) : World :=
  MkWorld (environ w) (files w) d (conns w) (cursors w) (fds w) (logged w).
Definition with_conns (c : list conn_state) (w : World) : World :=
  MkWorld (environ w) (files w) (databases w) c (cursors w) (fds w) (logged w).
Definition with_cursors (c : list cursor_state) (w : World) : World :=
  MkWorld (environ w) (files w) (databases w) (conns w) c (fds w) (logged w).
Definition with_fds (f : list string) (w : World) : World :=
  MkWorld (environ w) (files w) (databases w) (conns w) (cursors w) f (logged w).
Definition with_logged (l : list string) (w : World) : World :=
  MkWorld (environ w) (files w) (databases w) (conns w) (cursors w) (fds w) l.

(** [logger.info(msg, *args)] *)
Definition log_info (msg : string) (args : list string) (w : World) : result unit * World :=
  (Ok tt, with_logged (logged w ++ [getMessage msg args]) w).

(** [os.getenv(key)]: [None] when the variable is not set. *)
Definition getenv (key : string) (w : World) : result (option string) * World :=
  (Ok (environ w !! key), w).

(** [psycopg2.connect(...)].  Arguments that are [None] are left to
    libpq, which connects to the database named after the user. *)
Definition connect (user password host port database : option string) (w : World)
  : result connection * World :=
  if accepts user password host port then
    let target := default (default "" user) database in
    match databases w !! target with
    | Some _ =>
        (Ok (length (conns w)),
         with_conns (conns w ++ [MkConn target false true None]) w)
    | None => (Raise (OperationalError ("database does not exist: " +:+ target)), w)
    end
  else (Raise (OperationalError "could not connect to server"), w).

(** [conn.set_isolation_level(level)] *)
Definition set_isolation_level (h : connection) (level : Z) (w : World)
  : result unit * World :=
  match conns w !! h with
  | Some c =>
      if c_open c then
        (Ok tt,
         with_conns (<[h := MkConn (c_database c) (level =? 0)%Z true (c_pending c)]> (conns w)) w)
      else (Raise (InterfaceError "connection already closed"), w)
  | None => (Raise (InterfaceError "connection already closed"), w)
  end.

(** [conn.cursor()] *)
Definition conn_cursor (h : connection) (w : World) : result cursor * World :=
  match conns w !! h with
  | Some c =>
      if c_open c then
        (Ok (length (cursors w)), with_cursors (cursors w ++ [MkCursor h true]) w)
      else (Raise (InterfaceError "connection already closed"), w)
  | None => (Raise (InterfaceError "connection already closed"), w)
  end.

(** The instance receives [query] on connection [h]. *)
Definition server_execute (h : connection) (c : conn_state) (query : string) (w : World)
  : result unit * World :=
  match reads_create query with
  | Some n =>
      if c_autocommit c then
        match databases w !! n with
        | Some _ => (Raise (DuplicateDatabase ("database already exists: " +:+ n)), w)
        | None => (Ok tt, with_databases (<[n := template]> (databases w)) w)
        end
      else
        (Raise (ActiveSqlTransaction "CREATE DATABASE cannot run inside a transaction block"), w)
  | None =>
      match databases w !! c_database c with
      | Some committed =>
          let '(after, err) := run_batch query (default committed (c_pending c)) in
          let w' :=
            if c_autocommit c then
              with_databases (<[c_database c := after]> (databases w)) w
            else
              with_conns (<[h := MkConn (c_database c) false true (Some after)]> (conns w)) w in
          (match err with Some e => Raise e | None => Ok tt end, w')
      | None =>
          (Raise (OperationalError ("database does not exist: " +:+ c_database c)), w)
      end
  end.

(** [cur.execute(query)] *)
Definition execute (cur : cursor) (query : string) (w : World) : result unit * World :=
  match cursors w !! cur with
  | Some cs =>
      if cur_open cs then
        match conns w !! cur_conn cs with
        | Some c =>
            if c_open c then server_execute (cur_conn cs) c query w
            else (Raise (InterfaceError "connection already closed"), w)
        | None => (Raise (InterfaceError "connection already closed"), w)
        end
      else (Raise (InterfaceError "cursor already closed"), w)
  | None => (Raise (InterfaceError "cursor already closed"), w)
  end.

(** [cur.close()] *)
Definition cursor_close (cur : cursor) (w : World) : result unit * World :=
  match cursors w !! cur with
  | Some cs => (Ok tt, with_cursors (<[cur := MkCursor (cur_conn cs) false]> (cursors w)) w)
  | None => (Ok tt, w)
  end.

(** [conn.close()]: what was not committed is lost. *)
Definition conn_close (h : connection) (w : World) : result unit * World :=
  match conns w !! h with
  | Some c =>
      (Ok tt, with_conns (<[h := MkConn (c_database c) (c_autocommit c) false None]> (conns w)) w)
  | None => (Ok tt, w)
  end.

(** [open(path, mode)], for reading text. *)
Definition open_file (path mode : string) (w : World) : result file * World :=
  if String.eqb mode "r" then
    match files w !! path with
    | Some text => (Ok (length (fds w)), with_fds (fds w ++ [text]) w)
    | None => (Raise (FileNotFoundError ("No such file or directory: " +:+ path)), w)
    end
  else (Raise (ValueError ("mode not supported: " +:+ mode)), w).

(** [f.read()]: everything that is left.  [files] holds the text of a
    file as decoding yields it, so in this state reading an open file
    does not raise; a read that raises is covered where the surroundings
    are arbitrary. *)
Definition read_file (f : file) (w : World) : result string * World :=
  match fds w !! f with
  | Some text => (Ok text, with_fds (<[f := ""]> (fds w)) w)
  | None => (Raise (ValueError "I/O operation on closed file"), w)
  end.

Definition answer (X : Type) (c : call X) (w : World) : result X * World :=
  match c in call T return result T * World with
  | LogInfo msg args => log_info msg args w
  | Getenv key => getenv key w
  | Connect u p h pt d => connect u p h pt d w
  | SetIsolationLevel h level => set_isolation_level h level w
  | ConnCursor h => conn_cursor h w
  | Execute cur q => execute cur q w
  | CursorClose cur => cursor_close cur w
  | ConnClose h => conn_close h w
  | Open path mode => open_file path mode w
  | Read f => read_file f w
  end.

(** The adapter calls a registered callback. *)
Definition invoke (f : callback) (event context : pyval) (w : World)
  : list entry * result unit * World :=
  run answer (f event context) w.

(** The instance lets the configured login in, and its default
    database is there. *)
Definition valid_credentials (w : World) : Prop :=
  accepts (environ w !! "CLAY_DATABASE_USER") (environ w !! "CLAY_DATABASE_PASSWORD")
          (environ w !! "CLAY_DATABASE_HOST") (environ w !! "CLAY_DATABASE_HOST_PORT") = true
  /\ is_Some (databases w !! "postgres").


End World.

End Pg.
Export Pg.

(* ------------------------------------------------------------------ *)
(** ** A small instance to run the handler against *)

Module Journal.

(** Lower-case letters, digits and the underscore: the characters of an
    identifier that needs no quoting. *)
Definition plain_char (a : ascii) : bool :=
  let n := nat_of_ascii a in
  ((97 <=? n) && (n <=? 122) || (48 <=? n) && (n <=? 57) || (n =? 95))%nat.

Fixpoint all_chars (f : ascii -> bool) (s : string) : bool :=
  match s with
  | EmptyString => true
  | String a s' => f a && all_chars f s'
  end.

(** The name in [CREATE DATABASE name;], for a plain name. *)
Definition journal_reads_create (q : string) : option string :=
  let kw := "CREATE DATABASE " in
  if String.prefix kw q then
    let n := String.substring (String.length kw) (String.length q - String.length kw - 1) q in
    if String.eqb q (kw +:+ n +:+ ";") && all_chars plain_char n
       && negb (String.eqb n "")
    then Some n else None
  else None.

(** A batch is appended to the journal of its database, unless it is
    empty or starts with the word FAIL. *)
Definition journal_run_batch (q : string) (d : list string) : list string * option exn :=
  if String.eqb q "" then (d, Some (ProgrammingError "can't execute an empty query"))
  else if String.prefix "FAIL" q then (d, Some (ProgrammingError "syntax error at or near FAIL"))
  else (d ++ [q], None).

Definition journal_accepts (user password host port : option string) : bool :=
  bool_decide (user = Some "admin") && bool_decide (password = Some "x")
  && bool_decide (host = Some "db.local") && bool_decide (port = Some "5432").

(** An instance whose databases are the list of batches run in them. *)
#[export] Instance journal : Postgres := {|
  Db := list string;
  template := [];
  accepts := journal_accepts;
  reads_create := journal_reads_create;
  run_batch := journal_run_batch
|}.

Definition env_of (user password host port name : string) : gmap string string :=
  <["CLAY_DATABASE_USER" := user]>
    (<["CLAY_DATABASE_PASSWORD" := password]>
       (<["CLAY_DATABASE_HOST" := host]>
          (<["CLAY_DATABASE_HOST_PORT" := port]>
             (<["CLAY_DATABASE_NAME" := name]> ∅)))).

(** The scenario of the specification: admin/x at db.local:5432, database
    appdb to be created, index.sql holding one CREATE TABLE. *)
Definition fresh_world : World :=
  MkWorld (env_of "admin" "x" "db.local" "5432" "appdb")
          (<["index.sql" := "CREATE TABLE t (id int);"]> ∅)
          (<["postgres" := []]> ∅)
          [] [] [] [].

(** The same, with appdb already there. *)
Definition taken_world : World :=
  with_databases (<["appdb" := ["CREATE TABLE old (id int);"]]> (databases fresh_world))
                 fresh_world.

(** The same as [fresh_world], with a script the instance rejects. *)
Definition failing_script_world : World :=
  MkWorld (environ fresh_world) (<["index.sql" := "FAIL;"]> ∅)
          (databases fresh_world) [] [] [] [].

(** The same as [fresh_world], without index.sql. *)
Definition no_script_world : World :=
  MkWorld (environ fresh_world) ∅ (databases fresh_world) [] [] [] [].

(** The same as [fresh_world], with a database name that carries a
    second statement. *)
Definition injected_world : World :=
  MkWorld (env_of "admin" "x" "db.local" "5432" "appdb; DROP DATABASE postgres")
          (files fresh_world) (databases fresh_world) [] [] [] [].

(** The environment of [fresh_world] with another password. *)
Definition other_password_env : gmap string string :=
  <["CLAY_DATABASE_PASSWORD" := "y"]> (environ fresh_world).

(** A program that opens a file and falls back to a constant when that
    raises. *)
Definition open_or_zero (path : string) : prog file :=
  TryExcept (Call (Open path "r")) (fun _ => Ret 0).

End Journal.
Export Journal.

(* ------------------------------------------------------------------ *)
(** ** The entry point *)

Module Entry.
Local Open Scope prog_scope.

(** [def handler(event, context)].  [adapter] stands for what calling the
    [CfnResource] object does with the callbacks it holds. *)
Definition handler (adapter : CfnResource -> callback) (event context : pyval) : prog unit :=
  Call (LogInfo "aws-cf-func invoked" []) ;;
  adapter helper event context.

End Entry.
Export Entry.

(* ------------------------------------------------------------------ *)
(** ** More readings of a trace *)

Module Reading.

(** The variable and the value of a [getenv] entry that returned. *)
Definition ev_env (e : entry) : option (string * option string) :=
  match e with
  | Ev c r =>
      match c in call T return result T -> option (string * option string) with
      | Getenv key => fun r => match r with Ok v => Some (key, v) | Raise _ => None end
      | _ => fun _ => None
      end r
  end.

(** The variable a [getenv] entry asked for. *)
Definition ev_env_key (e : entry) : option string :=
  match e with
  | Ev c _ =>
      match c with
      | Getenv key => Some key
      | _ => None
      end
  end.

(** The arguments of a [connect] entry, whether it came back or raised. *)
Definition ev_connect (e : entry)
  : option (option string * option string * option string * option string * option string) :=
  match e with
  | Ev c _ =>
      match c with
      | Connect u p h pt d => Some (u, p, h, pt, d)
      | _ => None
      end
  end.

(** The cursor a [cursor.close] entry was addressed to. *)
Definition ev_cursor_close (e : entry) : option cursor :=
  match e with
  | Ev c _ =>
      match c with
      | CursorClose k => Some k
      | _ => None
      end
  end.

(** What a [close] entry was addressed to: a cursor or a connection. *)
Definition ev_close (e : entry) : option (cursor + connection) :=
  match e with
  | Ev c _ =>
      match c with
      | CursorClose k => Some (inl k)
      | ConnClose h => Some (inr h)
      | _ => None
      end
  end.

(** The connection and level of a [set_isolation_level] entry that
    returned. *)
Definition ev_isolation (e : entry) : option (connection * Z) :=
  match e with
  | Ev c r =>
      match c in call T return result T -> option (connection * Z) with
      | SetIsolationLevel h level =>
          fun r => match r with Ok _ => Some (h, level) | Raise _ => None end
      | _ => fun _ => None
      end r
  end.

(** The connection a cursor was made on, latest cursor first. *)
Fixpoint owner_of (k : cursor) (owners : list (cursor * connection)) : option connection :=
  match owners with
  | [] => None
  | (k', h) :: owners' => if Nat.eqb k k' then Some h else owner_of k owners'
  end.

(** Replays a trace with the connections that are in autocommit mode
    ([auto]: a fresh connection is not, level 0 switches it on, another
    level off) and the cursors made so far ([owners]); true when every
    statement went out through a cursor whose connection was in autocommit
    mode at that moment. *)
Fixpoint sent_in_autocommit (auto : list connection) (owners : list (cursor * connection))
    (tr : list entry) : bool :=
  match tr with
  | [] => true
  | e :: tr' =>
      let auto1 :=
        match ev_connected e with
        | Some h => List.filter (fun x => negb (Nat.eqb x h)) auto
        | None => auto
        end in
      let auto2 :=
        match ev_isolation e with
        | Some (h, level) =>
            if (level =? 0)%Z then h :: auto1
            else List.filter (fun x => negb (Nat.eqb x h)) auto1
        | None => auto1
        end in
      let owners' :=
        match ev_cursor e with
        | Some (h, k) => (k, h) :: owners
        | None => owners
        end in
      match ev_execute e with
      | Some (k, _) =>
          match owner_of k owners with
          | Some h => existsb (Nat.eqb h) auto
          | None => false
          end
      | None => true
      end && sent_in_autocommit auto2 owners' tr'
  end.

(** Is the call an [execute]? *)
Definition is_execute {X : Type} (c : call X) : bool :=
  match c with
  | Execute _ _ => true
  | _ => false
  end.

(** The connection a [close] entry that returned was addressed to. *)
Definition ev_conn_closed (e : entry) : option connection :=
  match e with
  | Ev c r =>
      match c in call T return result T -> option connection with
      | ConnClose h => fun r => match r with Ok _ => Some h | Raise _ => None end
      | _ => fun _ => None
      end r
  end.

(** Replays a trace: a [connect] that returned adds its connection to
    [acc], a [close] that returned takes its connection out. *)
Fixpoint still_open_from (acc : list connection) (tr : list entry) : list connection :=
  match tr with
  | [] => acc
  | e :: tr' =>
      still_open_from
        match ev_connected e with
        | Some h => h :: acc
        | None =>
            match ev_conn_closed e with
            | Some h => List.filter (fun x => negb (Nat.eqb x h)) acc
            | None => acc
            end
        end tr'
  end.

(** The connections a run has opened and not closed. *)
Definition still_open (tr : list entry) : list connection := still_open_from [] tr.

(** The cursors made in a trace with their connections, latest first. *)
Definition owners_in (tr : list entry) : list (cursor * connection) :=
  rev (omap (fun e => (fun hk : connection * cursor => (hk.2, hk.1)) <$> ev_cursor e) tr).

End Reading.
Export Reading.

(* ------------------------------------------------------------------ *)
(** ** More scenarios *)

Module Scenarios.

(** The scenario of [fresh_world] with CLAY_DATABASE_NAME not set. *)
Definition nameless_world : World :=
  with_environ (delete "CLAY_DATABASE_NAME" (environ fresh_world)) fresh_world.

(** The scenario of [fresh_world] with a password the instance does not
    accept. *)
Definition locked_out_world : World :=
  with_environ other_password_env fresh_world.






(** Does the text hold ASCII characters only? *)
Definition ascii_only (s : string) : bool :=
  all_chars (fun a => (nat_of_ascii a <? 128)%nat) s.

(** The exception [read] raises on a file object whose content does not
    decode, for a decoder that takes ASCII only (UnicodeDecodeError is a
    ValueError). *)
Definition read_fails {X : Type} (c : call X) (w : World) : option exn :=
  match c with
  | Read f =>
      match fds w !! f with
      | Some text =>
          if ascii_only text then None
          else Some (ValueError "codec can't decode byte: ordinal not in range(128)")
      | None => None
      end
  | _ => None
  end.

(** [answer] with a [read] that decodes. *)
Definition decoding_answer (X : Type) (c : call X) (w : World) : result X * World :=
  match read_fails c w with
  | Some e => (Raise e, w)
  | None => answer X c w
  end.

(** The scenario of [fresh_world] with an index.sql that holds the byte
    255. *)
Definition binary_script_world : World :=
  MkWorld (environ fresh_world)
          (<["index.sql" := String (ascii_of_nat 255) EmptyString]> ∅)
          (databases fresh_world) [] [] [] [].

(** A handler that connects, sends a statement the instance rejects, and
    closes the connection in a [finally] clause. *)
Definition guarded_execute : prog unit :=
  Bind (Call (Connect (Some "admin") (Some "x") (Some "db.local") (Some "5432")
                      (Some "postgres")))
       (fun conn =>
          TryFinally
            (Bind (Call (ConnCursor conn)) (fun cur => Call (Execute cur "FAIL;")))
            (Call (ConnClose conn))).

End Scenarios.
Export Scenarios.

(* ------------------------------------------------------------------ *)
(** ** Statements about runs that are put to the test below *)


(** "When the named database already exists, [create] fails with a
    duplicate-database error, and index.sql is neither read nor executed." *)
Definition fails_without_touching_script : Prop :=
  forall (pg : Postgres) (w : World) (event context : pyval) (n : string),
    valid_credentials w ->
    environ w !! "CLAY_DATABASE_NAME" = Some n ->
    reads_create ("CREATE DATABASE " +:+ n +:+ ";") = Some n ->
    is_Some (databases w !! n) ->
    let r := invoke create event context w in
    (exists msg, outcome r = Raise (DuplicateDatabase msg)) /\
    existsb ev_file (trace r) = false /\
    forall text, files w !! "index.sql" = Some text ->
                 text ∉ (executed (trace r)).*2.

(* ------------------------------------------------------------------ *)
(** ** Runs in general *)

Section RunFacts.
Context {W : Type} (answer : forall X, call X -> W -> result X * W).

Lemma run_bind_call {X B} (c : call X) (k : X -> prog B) (w : W) :
  run answer (Bind (Call c) k) w =
  match answer X c w with
  | (Ok x, w') => prepend (Ev c (Ok x)) (run answer (k x) w')
  | (Raise e, w') => ([Ev c (Raise e)], Raise e, w')
  end.
Proof.
  cbn [run]. destruct (answer X c w) as [[x|e] w']; [|done].
  unfold prepend, trace, outcome, final.
  by destruct (run answer (k x) w') as [[tr r] w''].
Qed.

Lemma run_call {X} (c : call X) (w : W) :
  run answer (Call c) w = ([Ev c (answer X c w).1], (answer X c w).1, (answer X c w).2).
Proof. cbn [run]. by destruct (answer X c w). Qed.

(** A run of a program without [try] either raises nowhere, or stops
    right after the one entry that raised, with that exception. *)
Lemma run_straight {A} (p : prog A) :
  straight p ->
  forall w,
    match outcome (run answer p w) with
    | Ok _ => Forall (fun x => ev_raised x = None) (trace (run answer p w))
    | Raise e =>
        exists pre x, trace (run answer p w) = pre ++ [x]
                      /\ ev_raised x = Some e
                      /\ Forall (fun x => ev_raised x = None) pre
    end.
Proof.
  induction 1 as [A a|X c|A B p k Hp IHp Hk IHk]; intros w.
  - cbn. constructor.
  - rewrite run_call. unfold outcome, trace. cbn [fst snd].
    destruct (answer X c w).1 as [x|e] eqn:E.
    + by repeat constructor.
    + exists [], (Ev c (Raise e)). by repeat split.
  - specialize (IHp w). cbn [run].
    destruct (run answer p w) as [[tr r] w'].
    unfold outcome, trace in IHp. cbn [fst snd] in IHp.
    destruct r as [a|e].
    + specialize (IHk a w').
      destruct (run answer (k a) w') as [[tr' r'] w''].
      unfold outcome, trace in *. cbn [fst snd] in *.
      destruct r' as [b|e'].
      * by apply Forall_app.
      * destruct IHk as (pre & x & -> & Hx & Hpre).
        exists (tr ++ pre), x. rewrite app_assoc. repeat split; [done|].
        by apply Forall_app.
    + done.
Qed.

(** In a list that is quiet up to its last entry, an entry that raised
    is the last one. *)
Lemma raised_is_last (pre : list entry) (x : entry) (pre' : list entry) (y : entry)
      (post : list entry) (e : exn) :
  Forall (fun x => ev_raised x = None) pre ->
  pre ++ [x] = pre' ++ y :: post ->
  ev_raised y = Some e ->
  post = [] /\ x = y.
Proof.
  intros Hpre Heq Hy.
  destruct post as [|z post _] using rev_ind.
  - apply app_inj_tail in Heq as [_ ->]. done.
  - rewrite app_comm_cons, app_assoc in Heq.
    apply app_inj_tail in Heq as [-> _].
    apply Forall_app in Hpre as [_ Hpre].
    apply Forall_cons in Hpre as [Hpre _]. congruence.
Qed.

End RunFacts.

(** With [try], an exception need not reach the caller. *)
Example open_or_zero_catches :
  run answer (open_or_zero "missing.sql") no_script_world
  = ([Ev (Open "missing.sql" "r")
         (Raise (FileNotFoundError "No such file or directory: missing.sql"))],
     Ok 0, no_script_world).
Proof.
  unfold open_or_zero. cbn [run answer]. unfold open_file.
  cbn [String.eqb Ascii.eqb Bool.eqb].
  change (files no_script_world) with (∅ : gmap string string).
  rewrite lookup_empty. reflexivity.
Qed.

Lemma create_straight (event context : pyval) : straight (create event context).
Proof. unfold create. repeat (constructor; intros). Qed.

(* ------------------------------------------------------------------ *)
(** ** The callbacks, whatever the surroundings do *)

(** C3: the callback registered for update events and for delete events is
    [no_op]; for every event and context payload its run makes no call at
    all (so no connection and no database operation), returns without
    raising, and leaves the surroundings as they were. *)
Theorem no_op_handles_update_and_delete (event context : pyval) :
  registered helper OnUpdate = Some no_op /\
  registered helper OnDelete = Some no_op /\
  (forall (W : Type) (answer : forall X, call X -> W -> result X * W) (w : W),
      run answer (no_op event context) w = ([], Ok tt, w)) /\
  (forall (W : Type) (answer : forall X, call X -> W -> result X * W) (w : W),
      db_effects (trace (run answer (no_op event context) w)) = []).
Proof. repeat split. Qed.

(** C6: [create] contains no [try]; in every run of it, against any
    surroundings, an entry that raised is the last entry of the run (nothing
    is retried and no clean-up call follows) and the run ends with exactly
    the exception that entry raised; and a run only ends with an exception
    that one of its calls raised. *)
Theorem create_fault_propagates {W : Type} (answer : forall X, call X -> W -> result X * W)
    (event context : pyval) (w : W) :
  let r := run answer (create event context) w in
  straight (create event context) /\
  (forall pre x post e,
      trace r = pre ++ x :: post -> ev_raised x = Some e ->
      post = [] /\ outcome r = Raise e) /\
  (forall e,
      outcome r = Raise e ->
      exists pre x, trace r = pre ++ [x] /\ ev_raised x = Some e
                    /\ Forall (fun y => ev_raised y = None) pre).
Proof.
  intros r. pose proof (run_straight answer _ (create_straight event context) w) as Hrun.
  fold r in Hrun. split; [apply create_straight|split].
  - intros pre x post e Htr Hx. destruct (outcome r) as [[]|e'].
    + rewrite Htr in Hrun. apply Forall_app in Hrun as [_ Hrun].
      apply Forall_cons in Hrun as [Hrun _]. congruence.
    + destruct Hrun as (pre' & y & Hy & Hraised & Hquiet). rewrite Hy in Htr.
      destruct (raised_is_last _ _ _ _ _ _ Hquiet Htr Hx) as [-> ->].
      split; [done|congruence].
  - intros e He. by rewrite He in Hrun.
Qed.

Lemma create_fault_propagates_witness :
  outcome (invoke create PyNone PyNone taken_world)
  = Raise (DuplicateDatabase "database already exists: appdb").
Proof.
  destruct (create_fault_propagates answer PyNone PyNone taken_world) as (_ & Hlast & _).
  refine (proj2 (Hlast (take 16 (trace (invoke create PyNone PyNone taken_world)))
                       (Ev (Execute 0 "CREATE DATABASE appdb;")
                           (Raise (DuplicateDatabase "database already exists: appdb")))
                       [] _ _ _)); vm_compute; reflexivity.
Defined.

(* ------------------------------------------------------------------ *)
(** ** Runs of [create] against a PostgreSQL instance *)

Lemma lookup_snoc {A} (l : list A) (x : A) : (l ++ [x]) !! length l = Some x.
Proof. by apply list_lookup_middle. Qed.

Lemma insert_snoc {A} (l : list A) (x y : A) : <[length l := y]> (l ++ [x]) = l ++ [y].
Proof. rewrite insert_app_r_alt by lia. by rewrite Nat.sub_diag. Qed.


Lemma append_empty_r (s : string) : s +:+ "" = s.
Proof. induction s as [|a s IH]; [done|]. change (String a (s +:+ "") = String a s). by rewrite IH. Qed.

Lemma percent_format_sql (sql : string) : percent_format "SQL: %s" [sql] = "SQL: " +:+ sql.
Proof. cbn. by rewrite append_empty_r. Qed.


Lemma length_snoc {A} (l : list A) (x : A) : length (l ++ [x]) = S (length l).
Proof. rewrite length_app. cbn. lia. Qed.

Lemma substring_append (s t : string) : String.substring 0 (String.length s) (s +:+ t) = s.
Proof.
  induction s as [|a s IH]; [by destruct t|].
  change (String a (String.substring 0 (String.length s) (s +:+ t)) = String a s).
  by rewrite IH.
Qed.

Lemma length_append (s t : string) :
  String.length (s +:+ t) = String.length s + String.length t.
Proof.
  induction s as [|a s IH]; [done|].
  change (S (String.length (s +:+ t)) = S (String.length s + String.length t)).
  by rewrite IH.
Qed.

Lemma eqb_succ_r (n : nat) : Nat.eqb n (S n) = false.
Proof. apply Nat.eqb_neq. lia. Qed.

Lemma eqb_succ_l (n : nat) : Nat.eqb (S n) n = false.
Proof. apply Nat.eqb_neq. lia. Qed.

(** Unfold what the instance answers in hypothesis [E]. *)
Ltac world_simpl_in E :=
  unfold answer, log_info, getenv, connect, set_isolation_level, conn_cursor, execute,
    server_execute, cursor_close, conn_close, open_file, read_file,
    with_environ, with_databases, with_conns, with_cursors, with_fds, with_logged in E;
  cbn [environ files databases conns cursors fds logged
       with_environ with_databases with_conns with_cursors with_fds with_logged
       c_database c_autocommit c_open c_pending cur_conn cur_open
       from_option id fstr String.eqb Ascii.eqb Bool.eqb
       ISOLATION_LEVEL_AUTOCOMMIT Z.eqb] in E.

Ltac split_in E :=
  repeat match type of E with
    | context [match ?x with _ => _ end] => destruct x eqn:?
    end.

Ltac settle_with tac E :=
  world_simpl_in E; tac;
  repeat (progress rewrite ?lookup_snoc, ?insert_snoc, ?lookup_insert_eq in E;
          world_simpl_in E);
  split_in E; simplify_eq.

(** One statement of the handler, in a hypothesis [Hr : is_run r (run ...)]:
    case analysis on how its call comes back, with the answer of the
    instance worked out. *)
Ltac call_step_with tac Hr :=
  rewrite run_bind_call in Hr;
  lazymatch type of Hr with
  | context [match answer ?X ?c ?w with _ => _ end] =>
      let E := fresh "E" in
      destruct (answer X c w) as [[?|?] ?] eqn:E; settle_with ltac:(tac E) E
  end;
  cbv beta in Hr.

(** The projections of a finished run. *)
Ltac read_run_in Hr :=
  cbn [prepend trace outcome final fst snd answer log_info
       environ files databases conns cursors fds logged
       with_environ with_databases with_conns with_cursors with_fds with_logged] in Hr.

Ltac read_run :=
  cbn [prepend trace outcome final fst snd
       environ files databases conns cursors fds logged
       with_environ with_databases with_conns with_cursors with_fds with_logged].

(** Evaluate the readings of an explicit trace. *)
Ltac read_trace :=
  cbn [db_effects executed log_lines omap list_omap ev_db ev_execute ev_logged ev_raised
       ev_connected ev_conn_close ev_file ev_read ev_cursor until_execute
       file_fault closed_by existsb andb orb negb getMessage fstr head last In];
  change ISOLATION_LEVEL_AUTOCOMMIT with 0%Z.

(** Name the run of [create] in the goal and expose its program. *)
Ltac start_run r Hr :=
  lazymatch goal with
  | |- context [invoke create ?event ?context ?w] =>
      assert (exists r, is_run r (invoke create event context w)) as [r Hr]
        by (eexists; reflexivity);
      replace (invoke create event context w) with r by exact Hr;
      unfold invoke, create in Hr
  end.

(** Put the run, as far as it has been worked out, back into the goal. *)
Ltac end_run r Hr :=
  try rewrite run_call in Hr;
  read_run_in Hr; unfold is_run in Hr; subst r; read_run.

(** All the ways [create] can run against the instance: one goal for each,
    with the run replaced by its trace, outcome and final state. *)
Ltac run_create_with tac :=
  let r := fresh "r" in
  let Hr := fresh "Hr" in
  start_run r Hr;
  repeat (call_step_with tac Hr);
  end_run r Hr.

Ltac run_create := run_create_with ltac:(fun E => idtac).

Section Create.
Context `{Postgres}.


(** C2, as the code has it: when the configured database [n] already
    exists (credentials valid, index.sql readable, and the instance reads
    the statement as the creation of a database named [n]), [create] ends
    with the duplicate-database error that CREATE DATABASE raised, and
    that call is the last one of the run: by then index.sql has been
    opened and read in full, but its text is never executed, no second
    connection is made, and the databases are what they were. *)
Theorem create_existing_database_fails (w : World) (event context : pyval)
    (n sql : string) :
  valid_credentials w ->
  environ w !! "CLAY_DATABASE_NAME" = Some n ->
  reads_create ("CREATE DATABASE " +:+ n +:+ ";") = Some n ->
  is_Some (databases w !! n) ->
  files w !! "index.sql" = Some sql ->
  let r := invoke create event context w in
  let user := environ w !! "CLAY_DATABASE_USER" in
  let password := environ w !! "CLAY_DATABASE_PASSWORD" in
  let host := environ w !! "CLAY_DATABASE_HOST" in
  let port := environ w !! "CLAY_DATABASE_HOST_PORT" in
  let conn := length (conns w) in
  let cur := length (cursors w) in
  let dup := DuplicateDatabase ("database already exists: " +:+ n) in
  outcome r = Raise dup /\
  omap ev_read (trace r) = [sql] /\
  executed (trace r) = [(cur, "CREATE DATABASE " +:+ n +:+ ";")] /\
  db_effects (trace r) =
    [ DbConnect user password host port (Some "postgres") (Ok conn);
      DbAutocommit conn 0;
      DbExecute cur ("CREATE DATABASE " +:+ n +:+ ";") (Raise dup) ] /\
  databases (final r) = databases w /\
  last (trace r) = Some (Ev (Execute cur ("CREATE DATABASE " +:+ n +:+ ";")) (Raise dup)) /\
  length (trace r) = 17.
Proof.
  intros [Hacc [pgdb Hpg]] Hn Hcreate [old Hold] Hfile. cbv zeta.
  run_create_with ltac:(fun E => rewrite ?Hn in E).
  read_trace. repeat split.
Qed.


Lemma create_opening_run (w : World) (event context : pyval) :
  exists res, take 8 (trace (invoke create event context w)) = create_opening (environ w) res.
Proof.
  let r := fresh "r" in
  let Hr := fresh "Hr" in
  start_run r Hr;
  do 8 (call_step_with ltac:(fun E => idtac) Hr);
  end_run r Hr.
  all: unfold create_opening; cbn [take]; eexists; reflexivity.
Qed.

(** C7: every run of [create] starts by asking the process environment
    for the five settings, and hands what it got (nothing, for a variable
    that is not set: no default takes its place and no check comes first)
    straight to [connect]; a later invocation in a changed environment
    reads the changed values. *)
Theorem create_reads_environment_afresh (w : World) (event context : pyval) :
  (exists res,
      take 8 (trace (invoke create event context w)) = create_opening (environ w) res) /\
  (forall (env' : gmap string string) (event' context' : pyval),
      let w' := with_environ env' (final (invoke create event context w)) in
      exists res,
        take 8 (trace (invoke create event' context' w')) = create_opening env' res).
Proof.
  split; [apply create_opening_run|].
  intros env' event' context' w'. apply (create_opening_run w').
Qed.

Lemma create_log_shape (w : World) (event context : pyval) :
  let r := invoke create event context w in
  let expected :=
    create_log (environ w !! "CLAY_DATABASE_USER") (environ w !! "CLAY_DATABASE_HOST")
               (environ w !! "CLAY_DATABASE_HOST_PORT") (environ w !! "CLAY_DATABASE_NAME")
               (default "" (files w !! "index.sql")) in
  logged (final r) = logged w ++ log_lines (trace r) /\
  log_lines (trace r) `prefix_of` expected /\
  (outcome r = Ok tt -> log_lines (trace r) = expected).
Proof.
  cbv zeta. run_create.
  all: read_trace; rewrite ?percent_format_sql, ?append_empty_r; unfold create_log;
    repeat match goal with
      | Hf : files _ !! _ = _ |- _ => rewrite Hf; clear Hf
      end;
    cbn [from_option id]; rewrite <- ?app_assoc; cbn [app].
  all: split; [reflexivity|split].
  all: try (repeat apply prefix_cons; apply prefix_nil).
  all: intros Hout; first [discriminate Hout | reflexivity].
Qed.

(** C10: the lines a run of [create] logs are the first so many lines of
    a list computed from the user, the host, the port, the database name
    and the script text alone (all of them when the run reaches its end:
    the four settings are on the second line, the script on the fifth);
    the password is no input of that list.  So two runs in environments
    that differ in the password only log the same lines, up to the point
    where the shorter one stops. *)
Theorem create_log_leaves_password_out (w : World) (event context : pyval) :
  let r := invoke create event context w in
  let expected :=
    create_log (environ w !! "CLAY_DATABASE_USER") (environ w !! "CLAY_DATABASE_HOST")
               (environ w !! "CLAY_DATABASE_HOST_PORT") (environ w !! "CLAY_DATABASE_NAME")
               (default "" (files w !! "index.sql")) in
  logged (final r) = logged w ++ log_lines (trace r) /\
  log_lines (trace r) `prefix_of` expected /\
  (outcome r = Ok tt -> log_lines (trace r) = expected) /\
  (forall env' : gmap string string,
      (forall k, k <> "CLAY_DATABASE_PASSWORD" -> env' !! k = environ w !! k) ->
      let r' := invoke create event context (with_environ env' w) in
      log_lines (trace r) `prefix_of` log_lines (trace r')
      \/ log_lines (trace r') `prefix_of` log_lines (trace r)).
Proof.
  intros r expected.
  destruct (create_log_shape w event context) as (Hlogged & Hprefix & Hfull).
  repeat split; [exact Hlogged|exact Hprefix|exact Hfull|].
  intros env' Henv r'.
  destruct (create_log_shape (with_environ env' w) event context) as (_ & Hprefix' & _).
  cbn [with_environ environ files] in Hprefix'.
  rewrite !Henv in Hprefix' by discriminate.
  exact (prefix_weak_total _ _ _ Hprefix Hprefix').
Qed.

(** C5: whatever string [n] the variable CLAY_DATABASE_NAME holds, the
    first statement a run of [create] sends, if it gets to send one, goes
    through the cursor of the first connection and reads CREATE DATABASE,
    a blank, the characters of [n] as they are, and a semicolon; with
    valid credentials and index.sql in place the run does get there.
    Nothing is quoted or escaped: from position 16 on the text is [n]
    itself, so whatever [n] contains becomes part of the statement. *)
Theorem create_statement_is_verbatim (w : World) (event context : pyval) (n : string) :
  environ w !! "CLAY_DATABASE_NAME" = Some n ->
  let r := invoke create event context w in
  let stmt := "CREATE DATABASE " +:+ n +:+ ";" in
  (forall cur q,
      head (executed (trace r)) = Some (cur, q) ->
      q = stmt
      /\ head (omap ev_connected (trace r)) = Some (length (conns w))
      /\ head (omap ev_cursor (trace r)) = Some (length (conns w), cur)) /\
  (valid_credentials w -> is_Some (files w !! "index.sql") ->
   head (executed (trace r)) = Some (length (cursors w), stmt)) /\
  String.substring 16 (String.length n) stmt = n /\
  String.length stmt = 17 + String.length n.
Proof.
  intros Hn. cbv zeta.
  assert (String.length ("CREATE DATABASE " +:+ n +:+ ";") = 17 + String.length n) as Hlen.
  { change (16 + String.length (n +:+ ";") = 17 + String.length n).
    rewrite length_append. cbn. lia. }
  pose proof (substring_append n ";") as Hsub.
  run_create_with ltac:(fun E => rewrite ?Hn in E).
  all: read_trace; split; [|split; [|split; [exact Hsub|exact Hlen]]].
  all: try (intros cur q Hq; simplify_eq; done).
  all: intros [Hacc [pgdb Hpg]] [sql Hfile]; first [reflexivity | congruence].
Qed.

End Create.


Lemma create_existing_database_fails_witness :
  outcome (invoke create PyNone PyNone taken_world)
  = Raise (DuplicateDatabase "database already exists: appdb")
  /\ omap ev_read (trace (invoke create PyNone PyNone taken_world))
     = ["CREATE TABLE t (id int);"].
Proof.
  destruct (create_existing_database_fails taken_world PyNone PyNone
              "appdb" "CREATE TABLE t (id int);")
    as (Hout & Hread & _).
  - split; [vm_compute; reflexivity|]. exists []. vm_compute; reflexivity.
  - vm_compute; reflexivity.
  - vm_compute; reflexivity.
  - exists ["CREATE TABLE old (id int);"]. vm_compute; reflexivity.
  - vm_compute; reflexivity.
  - split; [exact Hout|exact Hread].
Defined.

(** C2 as stated does not hold: in the scenario where appdb exists, the
    run has opened and read index.sql by the time CREATE DATABASE fails. *)
Lemma existing_database_script_is_read : ~ fails_without_touching_script.
Proof.
  intros Hclaim.
  destruct (Hclaim journal taken_world PyNone PyNone "appdb") as (_ & Hfile & _).
  - split; [vm_compute; reflexivity|]. exists []. vm_compute; reflexivity.
  - vm_compute; reflexivity.
  - vm_compute; reflexivity.
  - exists ["CREATE TABLE old (id int);"]. vm_compute; reflexivity.
  - vm_compute in Hfile. discriminate Hfile.
Qed.


Lemma create_statement_is_verbatim_witness :
  head (executed (trace (invoke create PyNone PyNone injected_world)))
  = Some (0, "CREATE DATABASE appdb; DROP DATABASE postgres;").
Proof.
  destruct (create_statement_is_verbatim injected_world PyNone PyNone
              "appdb; DROP DATABASE postgres") as (_ & Hreach & _).
  - vm_compute; reflexivity.
  - apply Hreach.
    + split; [vm_compute; reflexivity|]. exists []. vm_compute; reflexivity.
    + exists "CREATE TABLE t (id int);". vm_compute; reflexivity.
Defined.

Lemma create_log_leaves_password_out_witness :
  let r := invoke create PyNone PyNone fresh_world in
  let r' := invoke create PyNone PyNone (with_environ other_password_env fresh_world) in
  log_lines (trace r)
  = create_log (Some "admin") (Some "db.local") (Some "5432") (Some "appdb")
               "CREATE TABLE t (id int);"
  /\ (log_lines (trace r) `prefix_of` log_lines (trace r')
      \/ log_lines (trace r') `prefix_of` log_lines (trace r)).
Proof.
  destruct (create_log_leaves_password_out fresh_world PyNone PyNone)
    as (_ & _ & Hfull & Hother).
  split.
  - rewrite Hfull; [vm_compute; reflexivity|vm_compute; reflexivity].
  - apply Hother. intros k Hk. unfold other_password_env.
    apply lookup_insert_ne. congruence.
Defined.

(* ------------------------------------------------------------------ *)
(** ** Runs of [create], whatever the surroundings do *)

(** One statement of the handler against an arbitrary interpretation [f]
    of the calls: case analysis on how its call comes back. *)
Ltac any_step f Hr :=
  rewrite (run_bind_call f) in Hr;
  lazymatch type of Hr with
  | context [match f ?X ?c ?w with _ => _ end] =>
      destruct (f X c w) as [[?|?] ?]
  end;
  cbv beta in Hr.

Ltac any_last_step f Hr :=
  rewrite (run_call f) in Hr;
  lazymatch type of Hr with
  | context [f ?X ?c ?w] => destruct (f X c w) as [[?|?] ?]
  end.

(** All the ways [create] can run against [f]: one goal for each, with the
    run replaced by its trace, outcome and final state. *)
Ltac any_run f :=
  lazymatch goal with
  | |- context [run f (create ?event ?context) ?w] =>
      let r := fresh "r" in
      let Hr := fresh "Hr" in
      assert (exists r, is_run r (run f (create event context) w)) as [r Hr]
        by (eexists; reflexivity);
      replace (run f (create event context) w) with r by exact Hr;
      unfold create in Hr;
      repeat (any_step f Hr);
      try any_last_step f Hr;
      cbn [prepend trace outcome final fst snd] in Hr;
      unfold is_run in Hr; subst r;
      cbn [prepend trace outcome final fst snd]
  end.

Ltac read_more :=
  cbn [omap list_omap ev_env ev_env_key ev_connect ev_cursor_close ev_close ev_isolation flat_map app
       ev_connected ev_conn_close ev_cursor ev_execute ev_file ev_raised executed
       sent_in_autocommit owner_of existsb andb orb negb length In fmap list_fmap snd fst Z.eqb
       List.filter].

Section AnyRun.
Context {W : Type} (answer : forall X, call X -> W -> result X * W).

(** X2: a run of [create] makes at most 28 calls, among them at most two
    [connect], two [execute] and one each of [open] and [read]: nothing is
    retried or repeated.  A run that returns normally made all 28, and its
    [close] calls are, for each cursor it made and in the order they were
    made, the close of the cursor followed by the close of the connection
    the cursor was made on; these are all the connections it opened. *)
Theorem create_calls_are_bounded (event context : pyval) (w : W) :
  let r := run answer (create event context) w in
  length (trace r) <= 28 /\
  length (omap ev_connect (trace r)) <= 2 /\
  length (executed (trace r)) <= 2 /\
  length (List.filter ev_file (trace r)) <= 2 /\
  (forall x, outcome r = Ok x ->
     length (trace r) = 28
     /\ omap ev_close (trace r)
        = flat_map (fun hk => [inl hk.2; inr hk.1]) (omap ev_cursor (trace r))
     /\ (omap ev_cursor (trace r)).*1 = omap ev_connected (trace r)).
Proof.
  cbv zeta. any_run answer.
  all: read_more.
  all: split; [lia|split; [lia|split; [lia|split; [lia|]]]].
  all: intros ? Hx; first [discriminate Hx | repeat split].
Qed.

(** X3: in every run of [create] the only variables asked of the
    environment are the five settings, each at most once and in the order
    user, password, host, port, name; and every [connect] the run makes,
    the first as well as the second, carries the user, password, host and
    port that these [getenv] calls returned.  The first [connect] names
    the database postgres, a second one names what [getenv] returned for
    CLAY_DATABASE_NAME. *)
Theorem create_connects_with_what_it_read (event context : pyval) (w : W) :
  let r := run answer (create event context) w in
  let env := omap ev_env (trace r) in
  omap ev_env_key (trace r)
    `prefix_of` [ "CLAY_DATABASE_USER"; "CLAY_DATABASE_PASSWORD"; "CLAY_DATABASE_HOST";
                  "CLAY_DATABASE_HOST_PORT"; "CLAY_DATABASE_NAME" ] /\
  (forall u p h pt d,
      In (u, p, h, pt, d) (omap ev_connect (trace r)) ->
      In ("CLAY_DATABASE_USER", u) env /\ In ("CLAY_DATABASE_PASSWORD", p) env /\
      In ("CLAY_DATABASE_HOST", h) env /\ In ("CLAY_DATABASE_HOST_PORT", pt) env) /\
  (forall d, (omap ev_connect (trace r)).*2 !! 0 = Some d -> d = Some "postgres") /\
  (forall d, (omap ev_connect (trace r)).*2 !! 1 = Some d -> In ("CLAY_DATABASE_NAME", d) env).
Proof.
  cbv zeta. any_run answer.
  all: read_more.
  all: split; [repeat apply prefix_cons; apply prefix_nil|split; [|split]].
  all: try (intros u p h pt d Hin;
            repeat match type of Hin with
                   | _ \/ _ => destruct Hin as [Hin|Hin]
                   end;
            try contradiction; injection Hin as <- <- <- <- <-; auto 10).
  all: intros d Hd; cbn [lookup list_lookup] in Hd;
       first [discriminate Hd | injection Hd as <-; auto 10].
Qed.

(** X5: in every run of [create], each statement goes out through a
    cursor of a connection that the run has switched to autocommit before:
    [set_isolation_level] with level 0 comes back on a connection before
    any [execute] on a cursor of that connection is attempted. *)
Theorem create_executes_in_autocommit (event context : pyval) (w : W) :
  sent_in_autocommit [] [] (trace (run answer (create event context) w)) = true.
Proof.
  any_run answer.
  all: repeat (progress (cbv [sent_in_autocommit owner_of ev_connected ev_isolation ev_cursor
                              ev_execute existsb andb orb negb List.filter Z.eqb
                              ISOLATION_LEVEL_AUTOCOMMIT];
                         rewrite ?Nat.eqb_refl)).
  all: reflexivity.
Qed.

End AnyRun.

(** A statement sent before the connection is switched does not pass. *)
Example sent_in_autocommit_rejects :
  sent_in_autocommit [] []
    [ Ev (Connect None None None None None) (Ok 0);
      Ev (ConnCursor 0) (Ok 0);
      Ev (Execute 0 "CREATE DATABASE appdb;") (Ok tt);
      Ev (SetIsolationLevel 0 0) (Ok tt) ] = false.
Proof. reflexivity. Qed.

(* ------------------------------------------------------------------ *)
(** ** More runs of [create] against a PostgreSQL instance *)


Section CreateMore.
Context `{Postgres}.

(** X4: the statements a run of [create] sends are, in this order and as
    far as the run gets, CREATE DATABASE followed by the configured name as
    an f-string prints it, and the text of index.sql as it was read; there
    is never a third statement.  When CLAY_DATABASE_NAME is not set, the
    name printed is None: the run still goes on, and the first statement is
    CREATE DATABASE None. *)
Theorem create_sends_name_and_script_as_they_are (w : World) (event context : pyval) :
  let r := invoke create event context w in
  let cur := length (cursors w) in
  executed (trace r)
    `prefix_of` [ (cur, "CREATE DATABASE " +:+ fstr (environ w !! "CLAY_DATABASE_NAME") +:+ ";");
                  (S cur, default "" (files w !! "index.sql")) ] /\
  (environ w !! "CLAY_DATABASE_NAME" = None ->
   valid_credentials w -> is_Some (files w !! "index.sql") ->
   head (executed (trace r)) = Some (cur, "CREATE DATABASE None;")).
Proof.
  cbv zeta. run_create.
  all: read_trace; rewrite ?length_snoc;
    repeat match goal with
      | Hf : files _ !! _ = _ |- _ => rewrite Hf; clear Hf
      end;
    cbn [from_option id].
  all: split; [repeat apply prefix_cons; apply prefix_nil|].
  all: intros Hnone [Hacc [pgdb Hpg]] [sql Hfile]; rewrite ?Hnone;
       first [reflexivity | congruence].
Qed.

(** X6: when the instance turns the login down, or has no database
    postgres to connect to, the run of [create] ends with the error of the
    first [connect] after eight calls: index.sql is not opened, no
    statement is sent, and the only change is the two lines in the log. *)
Theorem create_refused_login_touches_nothing (w : World) (event context : pyval) :
  accepts (environ w !! "CLAY_DATABASE_USER") (environ w !! "CLAY_DATABASE_PASSWORD")
          (environ w !! "CLAY_DATABASE_HOST") (environ w !! "CLAY_DATABASE_HOST_PORT") = false
  \/ databases w !! "postgres" = None ->
  let r := invoke create event context w in
  exists msg,
    outcome r = Raise (OperationalError msg)
    /\ trace r = create_opening (environ w) (Raise (OperationalError msg))
    /\ final r = with_logged (logged w ++ log_lines (trace r)) w.
Proof.
  intros [Hrefused|Hrefused]; cbv zeta.
  all: run_create_with ltac:(fun E => rewrite ?Hrefused in E).
  all: eexists; unfold create_opening, with_logged; read_trace;
       rewrite <- ?app_assoc; cbn [app]; repeat split.
Qed.


End CreateMore.

Lemma create_calls_are_bounded_witness :
  length (trace (invoke create PyNone PyNone fresh_world)) = 28.
Proof.
  destruct (create_calls_are_bounded answer PyNone PyNone fresh_world)
    as (_ & _ & _ & _ & Hfull).
  apply (Hfull tt). vm_compute; reflexivity.
Defined.

Lemma create_connects_with_what_it_read_witness :
  In ("CLAY_DATABASE_PASSWORD", Some "x")
     (omap ev_env (trace (run answer (create PyNone PyNone) fresh_world))).
Proof.
  destruct (create_connects_with_what_it_read answer PyNone PyNone fresh_world)
    as (_ & Hargs & _).
  destruct (Hargs (Some "admin") (Some "x") (Some "db.local") (Some "5432") (Some "appdb"))
    as (_ & Hpassword & _).
  - vm_compute. right; left; reflexivity.
  - exact Hpassword.
Defined.

Lemma create_sends_name_and_script_as_they_are_witness :
  head (executed (trace (invoke create PyNone PyNone nameless_world)))
  = Some (0, "CREATE DATABASE None;").
Proof.
  destruct (create_sends_name_and_script_as_they_are nameless_world PyNone PyNone)
    as (_ & Hnameless).
  apply Hnameless.
  - vm_compute; reflexivity.
  - split; [vm_compute; reflexivity|]. exists []. vm_compute; reflexivity.
  - exists "CREATE TABLE t (id int);". vm_compute; reflexivity.
Defined.

Lemma create_refused_login_touches_nothing_witness :
  exists msg,
    outcome (invoke create PyNone PyNone locked_out_world) = Raise (OperationalError msg)
    /\ databases (final (invoke create PyNone PyNone locked_out_world))
       = databases locked_out_world.
Proof.
  destruct (create_refused_login_touches_nothing locked_out_world PyNone PyNone)
    as (msg & Hout & _ & Hfinal).
  - left. vm_compute; reflexivity.
  - exists msg. split; [exact Hout|]. rewrite Hfinal. reflexivity.
Defined.


(* ------------------------------------------------------------------ *)
(** ** Faults in runs of [create], whatever the surroundings do *)


Section Frame.
Context {W D : Type} (answer : forall X, call X -> W -> result X * W) (dbs : W -> D).
Hypothesis only_execute_writes :
  forall X (c : call X) (w : W), is_execute c = false -> dbs (answer X c w).2 = dbs w.

(** What only [execute] can change is unchanged after a run that made no
    [execute]. *)
Lemma run_without_execute {A} (p : prog A) (w : W) :
  executed (trace (run answer p w)) = [] -> dbs (final (run answer p w)) = dbs w.
Proof using only_execute_writes.
  revert w. induction p as [A a|X c|A B p IHp k IHk|A body IHb handler IHh|A body IHb cleanup IHc];
    intros w.
  - done.
  - rewrite run_call. unfold trace, final, executed. cbn [fst snd omap list_omap].
    intros Hnone. apply only_execute_writes. by destruct c.
  - cbn [run]. specialize (IHp w).
    destruct (run answer p w) as [[tr [a|e]] w'].
    + specialize (IHk a w'). destruct (run answer (k a) w') as [[tr' r'] w''].
      unfold trace, final, executed in *. cbn [fst snd] in *.
      rewrite omap_app. intros [Hp Hk]%app_eq_nil. rewrite IHk, IHp; done.
    + done.
  - cbn [run]. specialize (IHb w).
    destruct (run answer body w) as [[tr [a|e]] w'].
    + done.
    + specialize (IHh e w'). destruct (run answer (handler e) w') as [[tr' r'] w''].
      unfold trace, final, executed in *. cbn [fst snd] in *.
      rewrite omap_app. intros [Hp Hk]%app_eq_nil. rewrite IHh, IHb; done.
  - cbn [run]. specialize (IHb w).
    destruct (run answer body w) as [[tr r] w'].
    specialize (IHc w'). destruct (run answer cleanup w') as [[tr' [[]|e']] w''].
    all: unfold trace, final, executed in *; cbn [fst snd] in *.
    all: rewrite omap_app; intros [Hp Hk]%app_eq_nil; rewrite IHc, IHb; done.
Qed.

End Frame.

(** Evaluate the readings of an explicit trace, arguments first. *)
Ltac replay :=
  repeat (progress (cbv [file_fault executed until_execute still_open still_open_from owners_in
                         owner_of closed_by ev_file ev_raised ev_execute ev_read ev_cursor
                         ev_connected ev_conn_closed ev_conn_close
                         omap list_omap fmap option_fmap option_map mbind option_bind
                         rev app last head removelast existsb andb orb negb List.filter fst snd];
                    rewrite ?Nat.eqb_refl)).

Section Faults.
Context {W : Type} (answer : forall X, call X -> W -> result X * W).

(** C8: against any surroundings, when [open] or [read] raises in a run
    of [create], that call is the last of the run and its exception is the
    outcome; no statement has been sent, so whatever only a statement can
    change (the databases of the server) is as it was.  In every run that
    does send a statement, [read] has returned the script text before the
    first statement goes out. *)
Theorem create_file_fault_sends_nothing {D : Type} (dbs : W -> D)
    (event context : pyval) (w : W) :
  let r := run answer (create event context) w in
  (file_fault (trace r) = true ->
   executed (trace r) = []
   /\ ev_file <$> last (trace r) = Some true
   /\ (exists e, last (trace r) ≫= ev_raised = Some e /\ outcome r = Raise e)
   /\ ((forall X (c : call X) (w0 : W), is_execute c = false -> dbs (answer X c w0).2 = dbs w0) ->
       dbs (final r) = dbs w)) /\
  (forall x, head (executed (trace r)) = Some x ->
             exists text, omap ev_read (until_execute (trace r)) = [text]).
Proof.
  cbv zeta.
  generalize (fun Hw => run_without_execute answer dbs Hw (create event context) w).
  any_run answer.
  all: replay; intros Hframe; split.
  all: try (intros Hfault;
            first [discriminate Hfault
                  |split; [reflexivity|split; [reflexivity|split;
                     [by eauto|intros Hw; by apply Hframe]]]]).
  all: intros x Hx; first [discriminate Hx | by eauto].
Qed.

(** C9: against any surroundings, in a run of [create] that ends with an
    exception the call that raised is the last call of the run: every call
    before it returned, and nothing, in particular no [close], comes after
    it, so the connections open when the fault was raised are the
    connections left open by the run.  When the call that raised is an
    [execute] (the CREATE DATABASE on the first connection or the script on
    the second), the connection its cursor was made on is one of them. *)
Theorem create_fault_leaves_connection_open (event context : pyval) (w : W) (e : exn) :
  let r := run answer (create event context) w in
  outcome r = Raise e ->
  last (trace r) ≫= ev_raised = Some e /\
  Forall (fun y => ev_raised y = None) (removelast (trace r)) /\
  still_open (trace r) = still_open (removelast (trace r)) /\
  (forall k q,
      last (trace r) ≫= ev_execute = Some (k, q) ->
      exists h, owner_of k (owners_in (trace r)) = Some h
                /\ In h (still_open (trace r))).
Proof.
  cbv zeta. any_run answer.
  all: intros Hout; first [discriminate Hout | injection Hout as <-].
  all: replay; split; [reflexivity|split; [repeat constructor|split; [reflexivity|]]].
  all: intros k q Hq; first [discriminate Hq | injection Hq as <- <-].
  all: replay; eexists; split; [reflexivity|by left].
Qed.

End Faults.

Lemma answer_keeps_databases `{Postgres} (X : Type) (c : call X) (w : World) :
  is_execute c = false -> databases (answer X c w).2 = databases w.
Proof.
  destruct c; try discriminate; intros _; cbn [answer];
    unfold log_info, getenv, connect, set_isolation_level, conn_cursor, cursor_close,
      conn_close, open_file, read_file;
    repeat case_match; reflexivity.
Qed.

Lemma decoding_answer_keeps_databases (X : Type) (c : call X) (w : World) :
  is_execute c = false -> databases (decoding_answer X c w).2 = databases w.
Proof.
  intros Hc. unfold decoding_answer. destruct (read_fails c w); [reflexivity|].
  by apply answer_keeps_databases.
Qed.

Lemma create_file_fault_sends_nothing_witness :
  (executed (trace (run decoding_answer (create PyNone PyNone) binary_script_world)) = []
   /\ databases (final (run decoding_answer (create PyNone PyNone) binary_script_world))
      = databases binary_script_world)
  /\ (executed (trace (run answer (create PyNone PyNone) no_script_world)) = []
      /\ databases (final (run answer (create PyNone PyNone) no_script_world))
         = databases no_script_world).
Proof.
  split.
  - destruct (create_file_fault_sends_nothing decoding_answer databases
                PyNone PyNone binary_script_world) as [Hfault _].
    destruct Hfault as (Hnone & _ & _ & Hsame).
    + vm_compute; reflexivity.
    + split; [exact Hnone|]. apply Hsame. exact decoding_answer_keeps_databases.
  - destruct (create_file_fault_sends_nothing answer databases
                PyNone PyNone no_script_world) as [Hfault _].
    destruct Hfault as (Hnone & _ & _ & Hsame).
    + vm_compute; reflexivity.
    + split; [exact Hnone|]. apply Hsame. exact answer_keeps_databases.
Defined.

Lemma create_fault_leaves_connection_open_witness :
  In 0 (still_open (trace (run answer (create PyNone PyNone) taken_world)))
  /\ In 1 (still_open (trace (run answer (create PyNone PyNone) failing_script_world))).
Proof.
  split.
  - destruct (create_fault_leaves_connection_open answer PyNone PyNone taken_world
                (DuplicateDatabase "database already exists: appdb"))
      as (_ & _ & _ & Hexecute).
    + vm_compute; reflexivity.
    + destruct (Hexecute 0 "CREATE DATABASE appdb;") as (h & Howner & Hopen).
      * vm_compute; reflexivity.
      * vm_compute in Howner. injection Howner as <-. exact Hopen.
  - destruct (create_fault_leaves_connection_open answer PyNone PyNone failing_script_world
                (ProgrammingError "syntax error at or near FAIL"))
      as (_ & _ & _ & Hexecute).
    + vm_compute; reflexivity.
    + destruct (Hexecute 1 "FAIL;") as (h & Howner & Hopen).
      * vm_compute; reflexivity.
      * vm_compute in Howner. injection Howner as <-. exact Hopen.
Defined.

(** A handler that closes its connection in a [finally] clause does not
    pass: the call that raised is not its last call, and no connection is
    left open. *)
Example finally_closes_the_connection :
  let r := run answer guarded_execute fresh_world in
  outcome r = Raise (ProgrammingError "syntax error at or near FAIL")
  /\ last (trace r) ≫= ev_raised = None
  /\ still_open (trace r) = [].
Proof. vm_compute. repeat split. Qed.
